(** * Minimum scaled Jacobian cell quality: the [quality] wrapper

    A shallow embedding of [ansys/mapdl/reader/cell_quality.py].

    The Python function [quality(grid)] coerces its argument to a pyvista
    unstructured grid, dispatches on the dtype of the points to one of the
    two compiled kernels of [ansys.mapdl.reader._cellqual], forces the score
    of null cells to one in place and, for structured grids, returns the
    negated array.

    numpy arrays are objects with identity: they live in a heap of arrays and
    are passed around by reference.  IEEE-754 values are the [spec_float] of
    the standard library (binary32 and binary64), so that negation, the
    constant one and the comparisons are those of the machine. *)

From Stdlib Require Import ZArith Bool String.
From Stdlib Require Import Floats.SpecFloat.
From stdpp Require Import base option list.

Local Open Scope Z_scope.

(** ** IEEE-754 scalars *)

Module Float.

(** The two floating-point dtypes the wrapper distinguishes. *)
Inductive fdtype := Float32 | Float64.

Definition prec (t : fdtype) : Z :=
  match t with Float32 => 24 | Float64 => 53 end.

Definition emax (t : fdtype) : Z :=
  match t with Float32 => 128 | Float64 => 1024 end.

(** The literal [1] stored into an array of dtype [t]. *)
Definition one (t : fdtype) : spec_float := SFone (prec t) (emax t).

(** Unary minus flips the sign bit. *)
Definition neg (x : spec_float) : spec_float := SFopp x.

Definition zero : spec_float := S754_zero false.

(** [x == 0] on floats: both zeros compare equal, NaN does not. *)
Definition is_zero (x : spec_float) : bool := SFeqb x zero.


(** Conversion of an integer to binary64, round to nearest even. *)
Definition of_Z64 (z : Z) : spec_float :=
  binary_normalize (prec Float64) (emax Float64) z 0 false.

(** Conversion of a float of any format to binary64. *)
Definition to_64 (x : spec_float) : spec_float :=
  match x with
  | S754_finite s m e =>
      binary_normalize (prec Float64) (emax Float64)
        (cond_Zopp s (Zpos m)) e s
  | _ => x
  end.

End Float.

(** ** numpy arrays *)

Module Numpy.
Import Float.

(** Integer dtypes of VTK-backed arrays. *)
Inductive idtype :=
| Int8 | UInt8 | Int16 | UInt16 | Int32 | UInt32 | Int64 | UInt64.

Definition bits (t : idtype) : Z :=
  match t with
  | Int8 | UInt8 => 8
  | Int16 | UInt16 => 16
  | Int32 | UInt32 => 32
  | Int64 | UInt64 => 64
  end.

Definition signed (t : idtype) : bool :=
  match t with
  | Int8 | Int16 | Int32 | Int64 => true
  | _ => false
  end.

(** Wrap-around of a fixed-width integer. *)
Definition wrap_int (t : idtype) (z : Z) : Z :=
  if signed t
  then (z + 2 ^ (bits t - 1)) mod 2 ^ bits t - 2 ^ (bits t - 1)
  else z mod 2 ^ bits t.

Inductive dtype := DFloat (t : fdtype) | DInt (t : idtype).

(** A one-dimensional view of the data of an array (points are stored
    row by row). *)
Inductive ndarray :=
| FArr (t : fdtype) (xs : list spec_float)
| IArr (t : idtype) (xs : list Z).

Definition dtype_of (a : ndarray) : dtype :=
  match a with
  | FArr t _ => DFloat t
  | IArr t _ => DInt t
  end.

Definition size (a : ndarray) : nat :=
  match a with
  | FArr _ xs => length xs
  | IArr _ xs => length xs
  end.

Definition is_float64 (a : ndarray) : bool :=
  match a with FArr Float64 _ => true | _ => false end.

Definition is_float32 (a : ndarray) : bool :=
  match a with FArr Float32 _ => true | _ => false end.

(** [a == 0]: the boolean mask of the zero entries. *)
Definition eq_zero (a : ndarray) : list bool :=
  match a with
  | FArr _ xs => is_zero <$> xs
  | IArr _ xs => Z.eqb 0 <$> xs
  end.

(** The array after [a[mask] = 1], for a mask of the size of [a]. *)
Definition put_one (mask : list bool) (a : ndarray) : ndarray :=
  match a with
  | FArr t xs => FArr t (zip_with (fun b x => if b : bool then one t else x) mask xs)
  | IArr t xs => IArr t (zip_with (fun b x => if b : bool then 1 else x) mask xs)
  end.

(** [-a]: a new array. *)
Definition negative (a : ndarray) : ndarray :=
  match a with
  | FArr t xs => FArr t (neg <$> xs)
  | IArr t xs => IArr t ((fun z => wrap_int t (- z)) <$> xs)
  end.

(** [a.astype(np.float64)]: a new array. *)
Definition astype_float64 (a : ndarray) : ndarray :=
  match a with
  | FArr _ xs => FArr Float64 (to_64 <$> xs)
  | IArr _ xs => FArr Float64 (of_Z64 <$> xs)
  end.

End Numpy.

(** ** Python objects, exceptions and the heap of arrays *)

Module Py.
Import Float Numpy.

(** Exceptions that reach the caller of [quality]: the built-in
    [TypeError] and [IndexError], the error of the kernel that names a cell
    type it does not support, and any other exception, by the name of its
    class. *)
Inductive exn :=
| TypeError (msg : string)
| IndexError (msg : string)
| UnsupportedCellType (code : Z)
| OtherError (cls msg : string).

Inductive pyresult (A : Type) :=
| Ok (a : A)
| Raise (e : exn).
Arguments Ok {A} a.
Arguments Raise {A} e.

(** A reference to an array. *)
Abbreviation loc := nat (only parsing).

(** [pyvista.UnstructuredGrid]: references to its four buffers. *)
Record ugrid := UGrid {
  ug_points : loc;
  ug_cells : loc;
  ug_offset : loc;
  ug_celltypes : loc
}.

(** [pyvista.StructuredGrid]: its points and its dimensions. *)
Record sgrid := SGrid {
  sg_points : loc;
  sg_dimensions : Z * Z * Z
}.

(** The argument of [quality], classified the way the [isinstance] tests
    of the wrapper classify it; [F] is the type of every other object. *)
Inductive pyobj (F : Type) :=
| StructuredGrid (g : sgrid)
| UnstructuredGrid (g : ugrid)
| Foreign (o : F).
Arguments StructuredGrid {F} g.
Arguments UnstructuredGrid {F} g.
Arguments Foreign {F} o.

(** The two compiled kernels. *)
Inductive kernel := Double | Single.

(** One invocation of a kernel, with the contents of its arguments at
    the time of the call. *)
Record kcall := KCall {
  k_kernel : kernel;
  k_cells : ndarray;
  k_offset : ndarray;
  k_celltypes : ndarray;
  k_points : ndarray
}.

Record world := World {
  heap : list ndarray;
  calls : list kcall
}.

(** Computations that read and write the heap and may raise. *)
Definition M (A : Type) : Type := world -> pyresult A * world.

Definition ret {A} (a : A) : M A := fun w => (Ok a, w).

Definition raise {A} (e : exn) : M A := fun w => (Raise e, w).

Definition bind {A B} (m : M A) (k : A -> M B) : M B :=
  fun w =>
    match m w with
    | (Ok a, w') => k a w'
    | (Raise e, w') => (Raise e, w')
    end.

Definition lift {A} (r : pyresult A) : M A := fun w => (r, w).

(** A reference to an array that does not exist; no Python program can
    hold one. *)
Definition dangling {A} : pyresult A :=
  Raise (OtherError "SystemError" "dangling reference").

(** A new array object. *)
Definition alloc (a : ndarray) : M loc :=
  fun w => (Ok (length (heap w)), World (heap w ++ [a]) (calls w)).

Definition load (l : loc) : M ndarray :=
  fun w =>
    match heap w !! l with
    | Some a => (Ok a, w)
    | None => (dangling, w)
    end.

(** In-place update of the array at [l]. *)
Definition store (l : loc) (a : ndarray) : M unit :=
  fun w => (Ok tt, World (<[l := a]> (heap w)) (calls w)).

Definition log (c : kcall) : M unit :=
  fun w => (Ok tt, World (heap w) (calls w ++ [c])).

End Py.

Export Py.

Declare Scope py_scope.
Delimit Scope py_scope with py.
Notation "x <- m ;; k" := (bind m (fun x => k))
  (at level 100, m at next level, right associativity) : py_scope.
Notation "m ;;; k" := (bind m (fun _ => k))
  (at level 100, right associativity) : py_scope.
Local Open Scope py_scope.

(** ** The collaborators of the wrapper *)

Import Float Numpy.

(** The contents of the four buffers of an unstructured grid. *)
Record ugrid_data := UGridData {
  ud_points : ndarray;
  ud_cells : ndarray;
  ud_offset : ndarray;
  ud_celltypes : ndarray
}.

(** pyvista: [pv.wrap] on an object that is neither kind of grid, and
    [StructuredGrid.cast_to_unstructured_grid], which builds a new grid from
    the points and the dimensions of the structured one. *)
Class PyVista := {
  foreign : Type;
  wrap : foreign -> pyresult (pyobj foreign);
  cast_to_unstructured_grid : ndarray -> Z * Z * Z -> ugrid_data
}.

(** [ansys.mapdl.reader._cellqual]: the compiled kernels, as functions of
    the contents of [cells], [offset], [celltypes] and [points].  A kernel
    returns a new floating-point array or raises. *)
Class CellQual := {
  cell_quality :
    ndarray -> ndarray -> ndarray -> ndarray -> pyresult (fdtype * list spec_float);
  cell_quality_float :
    ndarray -> ndarray -> ndarray -> ndarray -> pyresult (fdtype * list spec_float)
}.

Definition run_kernel `{CellQual} (k : kernel) :=
  match k with
  | Double => cell_quality
  | Single => cell_quality_float
  end.

(** Modelled from the spec: [ansys.mapdl.reader.misc.vtk_cell_info] is not
    part of the sources; it hands over the connectivity buffer and the offset
    buffer of the grid. *)
Definition vtk_cell_info (grid : ugrid) : loc * loc :=
  (ug_cells grid, ug_offset grid).

Section Wrapper.
Context `{PV : PyVista} `{CQ : CellQual}.

(** [grid.cast_to_unstructured_grid()]: a new grid with new buffers. *)
Definition cast (g : sgrid) : M ugrid :=
  p <- load (sg_points g) ;;
  let d := cast_to_unstructured_grid p (sg_dimensions g) in
  points <- alloc (ud_points d) ;;
  cells <- alloc (ud_cells d) ;;
  offset <- alloc (ud_offset d) ;;
  celltypes <- alloc (ud_celltypes d) ;;
  ret (UGrid points cells offset celltypes).

(** Lines 38-45: the grid the kernel will see, and [flip]. *)
Definition coerce (grid : pyobj foreign) : M (ugrid * bool) :=
  match grid with
  | StructuredGrid g =>
      grid <- cast g ;;
      ret (grid, true)
  | UnstructuredGrid g => ret (g, false)
  | Foreign o =>
      grid <- lift (wrap o) ;;
      match grid with
      | UnstructuredGrid g => ret (g, false)
      | _ => raise (TypeError "Input grid should be a pyvista or vtk UnstructuredGrid")
      end
  end.

(** A call of a compiled kernel: it reads its four arguments and returns
    a new array. *)
Definition call (k : kernel) (cells offset celltypes points : loc) : M loc :=
  c <- load cells ;;
  o <- load offset ;;
  t <- load celltypes ;;
  p <- load points ;;
  log (KCall k c o t p) ;;;
  q <- lift (run_kernel k c o t p) ;;
  alloc (FArr (fst q) (snd q)).

(** Lines 47-56: dispatch on the dtype of the points. *)
Definition dispatch (grid : ugrid) : M loc :=
  let celltypes := ug_celltypes grid in
  let points := ug_points grid in
  let '(cells, offset) := vtk_cell_info grid in
  p <- load points ;;
  if is_float64 p then call Double cells offset celltypes points
  else if is_float32 p then call Single cells offset celltypes points
  else
    points <- alloc (astype_float64 p) ;;
    call Double cells offset celltypes points.

(** Line 59, [qual[grid.celltypes == 0] = 1]: a boolean mask must have the
    size of the array it indexes. *)
Definition set_null_cells (grid : ugrid) (qual : loc) : M unit :=
  t <- load (ug_celltypes grid) ;;
  q <- load qual ;;
  let mask := eq_zero t in
  if Nat.eqb (length mask) (size q)
  then store qual (put_one mask q)
  else raise (IndexError "boolean index did not match indexed array along axis 0").

(** Lines 60-62. *)
Definition finish (flip : bool) (qual : loc) : M loc :=
  if flip
  then q <- load qual ;; alloc (negative q)
  else ret qual.

(** Lines 47-62, on the unstructured grid. *)
Definition measure (grid : ugrid) (flip : bool) : M loc :=
  qual <- dispatch grid ;;
  set_null_cells grid qual ;;;
  finish flip qual.

Definition quality (grid : pyobj foreign) : M loc :=
  coerced <- coerce grid ;;
  measure (fst coerced) (snd coerced).

End Wrapper.

(** ** What the caller observes *)

(** The outcome of a call: the exception, or the contents of the array that
    was returned. *)
Definition outcome (rw : pyresult loc * world) : pyresult ndarray :=
  match rw with
  | (Ok l, w) =>
      match heap w !! l with
      | Some a => Ok a
      | None => dangling
      end
  | (Raise e, _) => Raise e
  end.

(** The contents of the buffers of an unstructured grid, when all four
    exist. *)
Definition buffers (w : world) (g : ugrid) : option ugrid_data :=
  match heap w !! ug_points g, heap w !! ug_cells g,
        heap w !! ug_offset g, heap w !! ug_celltypes g with
  | Some p, Some c, Some o, Some t => Some (UGridData p c o t)
  | _, _, _, _ => None
  end.

Section Denotation.
Context `{CQ : CellQual}.

(** The points the kernel receives. *)
Definition kernel_points (d : ugrid_data) : ndarray :=
  let p := ud_points d in
  if is_float64 p then p
  else if is_float32 p then p
  else astype_float64 p.

(** The kernel that is selected. *)
Definition kernel_of (d : ugrid_data) : kernel :=
  let p := ud_points d in
  if is_float64 p then Double
  else if is_float32 p then Single
  else Double.

(** The kernel invocation made for a grid with buffers [d]. *)
Definition kcall_of (d : ugrid_data) : kcall :=
  KCall (kernel_of d) (ud_cells d) (ud_offset d) (ud_celltypes d)
    (kernel_points d).

(** What the selected kernel answers. *)
Definition kernel_result (d : ugrid_data) : pyresult (fdtype * list spec_float) :=
  run_kernel (kernel_of d) (ud_cells d) (ud_offset d) (ud_celltypes d)
    (kernel_points d).

(** [qual] after line 59. *)
Definition null_cells_to_one (celltypes : ndarray) (q : fdtype * list spec_float)
  : ndarray :=
  put_one (eq_zero celltypes) (FArr (fst q) (snd q)).

(** Lines 58-62 on the array the kernel returned. *)
Definition postprocess (flip : bool) (celltypes : ndarray)
    (q : fdtype * list spec_float) : pyresult ndarray :=
  if Nat.eqb (length (eq_zero celltypes)) (length (snd q))
  then Ok (if flip
           then negative (null_cells_to_one celltypes q)
           else null_cells_to_one celltypes q)
  else Raise (IndexError "boolean index did not match indexed array along axis 0").

(** The outcome of [quality] as a function of the contents of the
    buffers of the grid the kernel sees. *)
Definition quality_of (flip : bool) (d : ugrid_data) : pyresult ndarray :=
  match kernel_result d with
  | Ok q => postprocess flip (ud_celltypes d) q
  | Raise e => Raise e
  end.

End Denotation.

(** Every array of [w] is still there, unchanged, in [w']. *)
Definition preserved (w w' : world) : Prop :=
  forall l a, heap w !! l = Some a -> heap w' !! l = Some a.

(** A computation keeps the arrays [h0] as they are, and what it returns
    satisfies [Q]. *)
Definition frames {A} (h0 : list ndarray) (m : M A) (Q : A -> Prop) : Prop :=
  forall w, h0 `prefix_of` heap w ->
    h0 `prefix_of` heap (snd (m w)) /\
    forall a, fst (m w) = Ok a -> Q a.

Definition is_structured {F} (grid : pyobj F) : bool :=
  match grid with
  | StructuredGrid _ => true
  | _ => false
  end.

(** The heap the kernel is called in: the one of the caller, with the copy
    of the points when they had to be converted. *)
Definition workspace (d : ugrid_data) (h : list ndarray) : list ndarray :=
  if is_float64 (ud_points d) then h
  else if is_float32 (ud_points d) then h
  else h ++ [astype_float64 (ud_points d)].

Section Observation.
Context `{PV : PyVista} `{CQ : CellQual}.

(** Every array the argument refers to exists. *)
Definition well_formed (w : world) (grid : pyobj foreign) : Prop :=
  match grid with
  | StructuredGrid s => is_Some (heap w !! sg_points s)
  | UnstructuredGrid g => is_Some (buffers w g)
  | Foreign o => forall g, wrap o = Ok (UnstructuredGrid g) -> is_Some (buffers w g)
  end.

Definition quality_of_grid (w : world) (g : ugrid) : pyresult ndarray :=
  match buffers w g with
  | Some d => quality_of false d
  | None => dangling
  end.

(** The outcome of [quality] read off the contents of the heap. *)
Definition denote (w : world) (grid : pyobj foreign) : pyresult ndarray :=
  match grid with
  | StructuredGrid s =>
      match heap w !! sg_points s with
      | Some p => quality_of true (cast_to_unstructured_grid p (sg_dimensions s))
      | None => dangling
      end
  | UnstructuredGrid g => quality_of_grid w g
  | Foreign o =>
      match wrap o with
      | Ok (UnstructuredGrid g) => quality_of_grid w g
      | Ok _ => Raise (TypeError "Input grid should be a pyvista or vtk UnstructuredGrid")
      | Raise e => Raise e
      end
  end.

(** The array [qual] as it stands when line 60 tests [flip]. *)
Definition before_flip (w : world) (grid : pyobj foreign) : pyresult ndarray :=
  match coerce grid w with
  | (Ok c, w1) => outcome (measure (fst c) false w1)
  | (Raise e, _) => Raise e
  end.

End Observation.

(** ** The quality kernel *)

(** Modelled from the spec: the compiled module
    [ansys.mapdl.reader._cellqual] ([cell_quality], [cell_quality_float])
    is not part of the sources.  Section 4.1 of the specification describes
    it as one pass over the cell-type buffer that dispatches each cell by
    its topology code to a fixed geometric evaluator: code 0 scores one
    without any geometric work, a supported code is scored by its
    evaluator, any other code fails the whole call with an error that names
    the code, and no partial result is returned.  The per-topology formulas
    are not given by the specification: they are the [evaluate] table, which
    maps a supported code to its evaluator at a precision. *)
Class Evaluators := {
  evaluate :
    fdtype -> Z -> option (ndarray -> ndarray -> ndarray -> nat -> pyresult spec_float)
}.

Section Kernel.
Context `{EV : Evaluators}.

(** Modelled from the spec: steps 1 to 5 of the per-cell algorithm for the
    cell number [i] of topology code [code]. *)
Definition score (t : fdtype) (cells offset points : ndarray) (i : nat)
    (code : Z) : pyresult spec_float :=
  if code =? 0 then Ok (one t)
  else
    match evaluate t code with
    | Some f => f cells offset points i
    | None => Raise (UnsupportedCellType code)
    end.

(** Modelled from the spec: the pass over the cells, in order; the first
    failure aborts it. *)
Fixpoint pass (t : fdtype) (cells offset points : ndarray) (i : nat)
    (codes : list Z) : pyresult (list spec_float) :=
  match codes with
  | [] => Ok []
  | code :: rest =>
      match score t cells offset points i code with
      | Ok x =>
          match pass t cells offset points (S i) rest with
          | Ok xs => Ok (x :: xs)
          | Raise e => Raise e
          end
      | Raise e => Raise e
      end
  end.

(** Modelled from the spec: the contract
    [compute_quality(points, connectivity, offsets, cell_types)] at the
    precision [t]; the cell types are topology codes, an integer buffer. *)
Definition compute_quality (t : fdtype) (cells offset celltypes points : ndarray)
  : pyresult (fdtype * list spec_float) :=
  match celltypes with
  | IArr _ codes =>
      match pass t cells offset points 0 codes with
      | Ok xs => Ok (t, xs)
      | Raise e => Raise e
      end
  | FArr _ _ => Raise (OtherError "ValueError" "Buffer dtype mismatch")
  end.


(** Modelled from the spec: the double and the single precision kernels
    share one formula table. *)
Definition spec_kernels : CellQual := {|
  cell_quality := compute_quality Float64;
  cell_quality_float := compute_quality Float32
|}.


End Kernel.

(** ** An instance of the collaborators, for the examples

    The theorems hold for all collaborators.  To run the wrapper on concrete
    grids, this instance flattens a structured grid the way VTK numbers the
    points and the hexahedra of a structured grid, and scores a hexahedron
    by the minimum over its eight corners of the scaled Jacobian, in the
    arithmetic of the selected precision. *)

Module Example.

(** Objects that are neither kind of pyvista grid: [None], a raw
    [vtkUnstructuredGrid] (wrapped without a copy) and a [PolyData]. *)
Inductive object :=
| PyNone
| VtkUnstructuredGrid (u : ugrid)
| PolyData.

Definition wrap_object (o : object) : pyresult (pyobj object) :=
  match o with
  | PyNone => Ok (Foreign PyNone)
  | VtkUnstructuredGrid u => Ok (UnstructuredGrid u)
  | PolyData => Ok (Foreign PolyData)
  end.

(** The point number of the lattice position [(i, j, k)]: the first index
    runs fastest. *)
Definition point_id (nx ny : Z) (i j k : Z) : Z := i + nx * (j + ny * k).

(** The eight nodes of the cell at [(i, j, k)], in VTK hexahedron order. *)
Definition hexahedron_nodes (nx ny : Z) (ijk : Z * Z * Z) : list Z :=
  let '(i, j, k) := ijk in
  [ point_id nx ny i j k; point_id nx ny (i + 1) j k;
    point_id nx ny (i + 1) (j + 1) k; point_id nx ny i (j + 1) k;
    point_id nx ny i j (k + 1); point_id nx ny (i + 1) j (k + 1);
    point_id nx ny (i + 1) (j + 1) (k + 1); point_id nx ny i (j + 1) (k + 1) ].

Definition range (n : Z) : list Z := Z.of_nat <$> seq 0 (Z.to_nat n).

(** The lattice positions of the cells, the first index fastest. *)
Definition cell_positions (nx ny nz : Z) : list (Z * Z * Z) :=
  k ← range (nz - 1); j ← range (ny - 1); i ← range (nx - 1); [(i, j, k)].

(** Flattening of a structured grid into hexahedra (code 12), the way
    [cast_to_unstructured_grid] of pyvista does through VTK; the cells at the
    positions listed in [blanked] are hidden cells of the structured grid and
    come out as empty cells (code 0). *)
Definition flatten (blanked : list nat) (p : ndarray) (dims : Z * Z * Z)
  : ugrid_data :=
  let '(nx, ny, nz) := dims in
  let cs := cell_positions nx ny nz in
  UGridData p
    (IArr Int64 (cs ≫= hexahedron_nodes nx ny))
    (IArr Int64 ((fun n => 8 * n) <$> range (Z.of_nat (length cs) + 1)))
    (IArr UInt8 (imap (fun n _ => if bool_decide (n ∈ blanked) then 0 else 12) cs)).

Definition pyvista (blanked : list nat) : PyVista := {|
  foreign := object;
  wrap := wrap_object;
  cast_to_unstructured_grid := flatten blanked
|}.

Definition ints (a : ndarray) : list Z :=
  match a with IArr _ xs => xs | FArr _ _ => [] end.

Definition floats (a : ndarray) : list spec_float :=
  match a with FArr _ xs => xs | IArr _ _ => [] end.

Definition vec : Type := spec_float * spec_float * spec_float.

Section Hexahedron.
Variable t : fdtype.

Definition fsub := SFsub (prec t) (emax t).
Definition fadd := SFadd (prec t) (emax t).
Definition fmul := SFmul (prec t) (emax t).
Definition fdiv := SFdiv (prec t) (emax t).
Definition fsqrt := SFsqrt (prec t) (emax t).

Definition vsub (a b : vec) : vec :=
  let '(ax, ay, az) := a in
  let '(bx, by_, bz) := b in
  (fsub ax bx, fsub ay by_, fsub az bz).

Definition norm (a : vec) : spec_float :=
  let '(x, y, z) := a in
  fsqrt (fadd (fadd (fmul x x) (fmul y y)) (fmul z z)).

Definition det3 (a b c : vec) : spec_float :=
  let '(ax, ay, az) := a in
  let '(bx, by_, bz) := b in
  let '(cx, cy, cz) := c in
  fadd
    (fsub (fmul ax (fsub (fmul by_ cz) (fmul bz cy)))
          (fmul ay (fsub (fmul bx cz) (fmul bz cx))))
    (fmul az (fsub (fmul bx cy) (fmul by_ cx))).

(** Modelled from the spec: the hexahedron evaluator of the compiled
    kernel is not part of the sources.  Steps 3 and 4 of the per-cell
    algorithm: the determinant of the Jacobian at the node [p0], built from
    the three edge vectors that leave it for [p1], [p2] and [p3], divided by
    the product of their magnitudes.  Step 6: at a degenerate node, where an
    edge has magnitude zero or the product of the magnitudes is zero, the
    ratio is the fallback value 0 and nothing is divided. *)
Definition scaled_jacobian (p0 p1 p2 p3 : vec) : spec_float :=
  let e1 := vsub p1 p0 in
  let e2 := vsub p2 p0 in
  let e3 := vsub p3 p0 in
  let magnitudes := fmul (fmul (norm e1) (norm e2)) (norm e3) in
  if is_zero (norm e1) || is_zero (norm e2) || is_zero (norm e3)
     || is_zero magnitudes
  then zero
  else fdiv (det3 e1 e2 e3) magnitudes.

Definition fmin (a b : spec_float) : spec_float :=
  if SFltb b a then b else a.

(** For each corner of a hexahedron in the node order of VTK, its three
    neighbours, right-handed for a cell that is not inverted: a right-angled
    corner with equal edges then scores one. *)
Definition hexahedron_corners : list (nat * nat * nat * nat) :=
  [ (0, 1, 3, 4); (1, 2, 0, 5); (2, 3, 1, 6); (3, 0, 2, 7);
    (4, 7, 5, 0); (5, 4, 6, 1); (6, 5, 7, 2); (7, 6, 4, 3) ]%nat.

Definition point (points : ndarray) (n : Z) : option vec :=
  let xs := floats points in
  x ← xs !! Z.to_nat (3 * n);
  y ← xs !! Z.to_nat (3 * n + 1);
  z ← xs !! Z.to_nat (3 * n + 2);
  Some (x, y, z).

(** The nodes of the cell number [i]: eight entries of the connectivity
    from its offset on. *)
Definition cell_points (cells offset points : ndarray) (i : nat)
  : option (list vec) :=
  start ← ints offset !! i;
  mapM (fun j => n ← ints cells !! (Z.to_nat start + j)%nat; point points n)
       (seq 0 8).

Definition corner_quality (ps : list vec) (c : nat * nat * nat * nat)
  : option spec_float :=
  let '(a, b, c, d) := c in
  p0 ← ps !! a; p1 ← ps !! b; p2 ← ps !! c; p3 ← ps !! d;
  Some (scaled_jacobian p0 p1 p2 p3).

(** Modelled from the spec: step 5 of the per-cell algorithm for a
    hexahedron, the minimum of the normalized values over its corners; an
    access out of bounds fails loudly (section 7). *)
Definition hexahedron (cells offset points : ndarray) (i : nat)
  : pyresult spec_float :=
  match cell_points cells offset points i ≫= fun ps =>
        mapM (corner_quality ps) hexahedron_corners with
  | Some (q :: qs) => Ok (foldl fmin q qs)
  | _ => Raise (IndexError "index out of bounds")
  end.

End Hexahedron.

(** A formula table with the hexahedron only. *)
Definition evaluators : Evaluators := {|
  evaluate t code := if code =? 12 then Some (hexahedron t) else None
|}.

Definition kernels : CellQual := @spec_kernels evaluators.

(** The grid of the docstring of [quality]: [np.arange(-10, 10, 5)] on each
    axis, [np.meshgrid] with its default indexing, points listed with the
    first array index fastest, dimensions [(4, 4, 4)]. *)
Definition arange : list Z := [-10; -5; 0; 5].

Definition docstring_points : list Z :=
  k ← arange; j ← arange; i ← arange; [j; i; k].

Definition docstring_world : world :=
  World [IArr Int64 docstring_points] [].

Definition docstring_grid {F} : pyobj F :=
  StructuredGrid (SGrid 0%nat (4, 4, 4)).

(** The array printed by the docstring: 27 times [1.], float64. *)
Definition docstring_output : ndarray :=
  FArr Float64 (replicate 27 (one Float64)).

(** A unit cube as an unstructured grid of one hexahedron with float64
    points, followed by a null cell. *)
Definition cube_points : list Z :=
  [0;0;0; 1;0;0; 1;1;0; 0;1;0; 0;0;1; 1;0;1; 1;1;1; 0;1;1].

Definition cube_world (codes : list Z) : world :=
  World [ FArr Float64 (of_Z64 <$> cube_points);
          IArr Int64 (range 8);
          IArr Int64 [0; 8; 8];
          IArr UInt8 codes ] [].

Definition cube_grid : ugrid := UGrid 0%nat 1%nat 2%nat 3%nat.

(** The example of the docstring, lines 25-32: the call returns the array
    that is printed. *)
Definition docstring_holds (PV : PyVista) (CQ : CellQual) : Prop :=
  outcome (quality docstring_grid docstring_world) = Ok docstring_output.

(** An array was obtained, it has cells, and each of its scores is the
    value [x] of its dtype. *)
Definition all_scores (x : fdtype -> spec_float) (a : pyresult ndarray) : Prop :=
  exists t xs, a = Ok (FArr t xs) /\ xs <> [] /\ Forall (eq (x t)) xs.

Definition minus_one (t : fdtype) : spec_float := neg (one t).

(** The grid of the docstring scores plus one in every cell before the
    sign flip and minus one after it. *)
Definition plus_one_then_minus_one (PV : PyVista) (CQ : CellQual) : Prop :=
  all_scores one (before_flip docstring_world docstring_grid) /\
  all_scores minus_one (outcome (quality docstring_grid docstring_world)).

End Example.

(** ** Raw VTK objects, for the examples *)

Module Vtk.
Import Float Numpy.

(** Raw VTK data sets: [pv.wrap] gives each the pyvista class of its kind,
    on the same buffers. *)
Inductive dataset :=
| VtkStructuredGrid (s : sgrid)
| VtkUnstructuredGrid (u : ugrid).

Definition wrap_dataset (o : dataset) : pyresult (pyobj dataset) :=
  match o with
  | VtkStructuredGrid s => Ok (StructuredGrid s)
  | VtkUnstructuredGrid u => Ok (UnstructuredGrid u)
  end.

Definition pyvista : PyVista := {|
  foreign := dataset;
  wrap := wrap_dataset;
  cast_to_unstructured_grid := Example.flatten []
|}.

(** The unit cube of [Example.cube_world] twice in one heap: with integer
    points, and with the same points as float64. *)
Definition cubes_world : world :=
  World [ IArr Int64 Example.cube_points;
          IArr Int64 (Example.range 8);
          IArr Int64 [0; 8];
          IArr UInt8 [12];
          FArr Float64 (of_Z64 <$> Example.cube_points) ] [].

Definition integer_cube : ugrid := UGrid 0%nat 1%nat 2%nat 3%nat.

Definition float_cube : ugrid := UGrid 4%nat 1%nat 2%nat 3%nat.

End Vtk.

(** ** Further concrete arguments *)

Module Cases.
Import Float Numpy.

(** The lattice of the docstring with [np.meshgrid(x, y, z, indexing='ij')]:
    the first array index, the fastest, now runs along x. *)
Definition ij_points : list Z :=
  k ← Example.arange; j ← Example.arange; i ← Example.arange; [i; j; k].

Definition ij_world : world := World [IArr Int64 ij_points] [].



(** Python strings: [pv.wrap] does not know what to do with one and raises
    [NotImplementedError]. *)
Inductive str := Str (s : string).

Definition wrap_str (o : str) : pyresult (pyobj str) :=
  Raise (OtherError "NotImplementedError" "Unable to wrap (<class 'str'>) into a pyvista type.").

Definition pyvista : PyVista := {|
  foreign := str;
  wrap := wrap_str;
  cast_to_unstructured_grid := Example.flatten []
|}.

End Cases.

(** * Properties *)

(** ** Floating-point facts *)

Section FloatFacts.
Import Float.

Lemma neg_involutive (x : spec_float) : neg (neg x) = x.
Proof. destruct x as [s|s| |s m e]; simpl; rewrite ?negb_involutive; reflexivity. Qed.

Lemma neg_inj (x y : spec_float) : neg x = neg y -> x = y.
Proof.
  intros E. rewrite <- (neg_involutive x), <- (neg_involutive y).
  now rewrite E.
Qed.

Lemma neg_one_ne_one (t : fdtype) : neg (one t) <> one t.
Proof. destruct t; discriminate. Qed.






End FloatFacts.

(** ** The arrays of the caller are framed *)

Section Frame.
Context `{PV : PyVista} `{CQ : CellQual}.
Variable h0 : list ndarray.

Lemma frames_ret {A} (a : A) (Q : A -> Prop) : Q a -> frames h0 (ret a) Q.
Proof. intros q w P; split; [exact P|]. simpl. now intros ? [= <-]. Qed.

Lemma frames_raise {A} (e : exn) (Q : A -> Prop) : frames h0 (raise e) Q.
Proof. intros w P; split; [exact P|]. simpl. discriminate. Qed.

Lemma frames_lift {A} (r : pyresult A) (Q : A -> Prop) :
  (forall a, r = Ok a -> Q a) -> frames h0 (lift r) Q.
Proof. intros q w P; split; [exact P|]. simpl. exact q. Qed.

Lemma frames_bind {A B} (m : M A) (k : A -> M B) (Q : A -> Prop) (R : B -> Prop) :
  frames h0 m Q -> (forall a, Q a -> frames h0 (k a) R) -> frames h0 (bind m k) R.
Proof.
  intros Hm Hk w P. unfold bind.
  destruct (Hm w P) as [P1 Q1]. destruct (m w) as [[a|e] w1]; simpl in *.
  - apply (Hk a (Q1 a eq_refl) w1 P1).
  - split; [exact P1 | discriminate].
Qed.

Lemma frames_weaken {A} (m : M A) (Q R : A -> Prop) :
  frames h0 m Q -> (forall a, Q a -> R a) -> frames h0 m R.
Proof. intros Hm QR w P. destruct (Hm w P) as [P1 Q1]. split; auto. Qed.

Lemma frames_load (l : loc) : frames h0 (load l) (fun _ => True).
Proof.
  intros w P. unfold load. destruct (heap w !! l); simpl; split; auto.
Qed.

(** A new array lies beyond the arrays of the caller. *)
Lemma frames_alloc (a : ndarray) :
  frames h0 (alloc a) (fun l => (length h0 <= l)%nat).
Proof.
  intros w P. simpl. split.
  - now apply prefix_app_r.
  - intros l [= <-]. now apply prefix_length.
Qed.

(** Writing to an array beyond those of the caller leaves them alone. *)
Lemma frames_store (l : loc) (a : ndarray) :
  (length h0 <= l)%nat -> frames h0 (store l a) (fun _ => True).
Proof.
  intros L w [k E]. simpl. split; [|auto].
  rewrite E, insert_app_r_alt by exact L. now apply prefix_app_r.
Qed.

Lemma frames_log (c : kcall) : frames h0 (log c) (fun _ => True).
Proof. intros w P. simpl. auto. Qed.

Lemma frames_cast (g : sgrid) : frames h0 (cast g) (fun _ => True).
Proof.
  unfold cast.
  eapply frames_bind; [apply frames_load|intros p _].
  do 4 (eapply frames_bind; [apply frames_alloc|intros ? _]).
  now apply frames_ret.
Qed.

Lemma frames_coerce (grid : pyobj foreign) :
  frames h0 (coerce grid) (fun _ => True).
Proof.
  destruct grid as [g|g|o]; simpl.
  - eapply frames_bind; [apply frames_cast|intros ? _]. now apply frames_ret.
  - now apply frames_ret.
  - eapply frames_bind; [apply (frames_lift _ (fun _ => True)); auto|].
    intros [g|g|o'] _; first [now apply frames_ret | apply frames_raise].
Qed.

Lemma frames_call (k : kernel) (cells offset celltypes points : loc) :
  frames h0 (call k cells offset celltypes points)
    (fun l => (length h0 <= l)%nat).
Proof.
  unfold call.
  do 4 (eapply frames_bind; [apply frames_load|intros ? _]).
  eapply frames_bind; [apply frames_log|intros _ _].
  eapply frames_bind; [apply (frames_lift _ (fun _ => True)); auto|intros q _].
  apply frames_alloc.
Qed.

Lemma frames_dispatch (g : ugrid) :
  frames h0 (dispatch g) (fun l => (length h0 <= l)%nat).
Proof.
  unfold dispatch, vtk_cell_info.
  eapply frames_bind; [apply frames_load|intros p _].
  destruct (is_float64 p); [apply frames_call|].
  destruct (is_float32 p); [apply frames_call|].
  eapply frames_bind; [apply frames_alloc|intros ? _]. apply frames_call.
Qed.

Lemma frames_set_null_cells (g : ugrid) (qual : loc) :
  (length h0 <= qual)%nat ->
  frames h0 (set_null_cells g qual) (fun _ => True).
Proof.
  intros L. unfold set_null_cells.
  do 2 (eapply frames_bind; [apply frames_load|intros ? _]).
  destruct (Nat.eqb _ _); [now apply frames_store | apply frames_raise].
Qed.

Lemma frames_finish (flip : bool) (qual : loc) :
  frames h0 (finish flip qual) (fun _ => True).
Proof.
  destruct flip; simpl; [|now apply frames_ret].
  eapply frames_bind; [apply frames_load|intros ? _].
  eapply frames_weaken; [apply frames_alloc|auto].
Qed.

Lemma frames_measure (g : ugrid) (flip : bool) :
  frames h0 (measure g flip) (fun _ => True).
Proof.
  unfold measure.
  eapply frames_bind; [apply frames_dispatch|intros qual L].
  eapply frames_bind; [now apply frames_set_null_cells|intros _ _].
  apply frames_finish.
Qed.

Lemma frames_quality (grid : pyobj foreign) :
  frames h0 (quality grid) (fun _ => True).
Proof.
  unfold quality.
  eapply frames_bind; [apply frames_coerce|intros ? _]. apply frames_measure.
Qed.

End Frame.

Lemma prefix_preserved (w w' : world) :
  heap w `prefix_of` heap w' -> preserved w w'.
Proof. intros P l a E. exact (prefix_lookup_Some _ _ _ _ E P). Qed.

Lemma preserved_buffers (w w' : world) (g : ugrid) (d : ugrid_data) :
  preserved w w' -> buffers w g = Some d -> buffers w' g = Some d.
Proof.
  intros P. unfold buffers.
  destruct (heap w !! ug_points g) as [p|] eqn:E1; [|discriminate].
  destruct (heap w !! ug_cells g) as [c|] eqn:E2; [|discriminate].
  destruct (heap w !! ug_offset g) as [o|] eqn:E3; [|discriminate].
  destruct (heap w !! ug_celltypes g) as [t|] eqn:E4; [|discriminate].
  intros E.
  now rewrite (P _ _ E1), (P _ _ E2), (P _ _ E3), (P _ _ E4).
Qed.

Lemma quality_preserves `{PV : PyVista} `{CQ : CellQual}
    (grid : pyobj foreign) (w : world) :
  preserved w (snd (quality grid w)).
Proof.
  apply prefix_preserved.
  apply (frames_quality (heap w) grid w). reflexivity.
Qed.

(** ** What a call computes *)

Section Runs.
Context `{PV : PyVista} `{CQ : CellQual}.

Lemma load_run (w : world) (l : loc) (a : ndarray) :
  heap w !! l = Some a -> load l w = (Ok a, w).
Proof. unfold load. now intros ->. Qed.

Lemma buffers_inv (w : world) (g : ugrid) (d : ugrid_data) :
  buffers w g = Some d ->
  heap w !! ug_points g = Some (ud_points d) /\
  heap w !! ug_cells g = Some (ud_cells d) /\
  heap w !! ug_offset g = Some (ud_offset d) /\
  heap w !! ug_celltypes g = Some (ud_celltypes d).
Proof.
  unfold buffers.
  destruct (heap w !! ug_points g), (heap w !! ug_cells g),
    (heap w !! ug_offset g), (heap w !! ug_celltypes g); try discriminate.
  now intros [= <-].
Qed.

Lemma call_run (k : kernel) (cells offset celltypes points : loc) (w : world)
    (c o t p : ndarray) :
  heap w !! cells = Some c -> heap w !! offset = Some o ->
  heap w !! celltypes = Some t -> heap w !! points = Some p ->
  call k cells offset celltypes points w =
    match run_kernel k c o t p with
    | Ok q =>
        (Ok (length (heap w)),
         World (heap w ++ [FArr (fst q) (snd q)]) (calls w ++ [KCall k c o t p]))
    | Raise e => (Raise e, World (heap w) (calls w ++ [KCall k c o t p]))
    end.
Proof.
  intros Hc Ho Ht Hp. unfold call, bind.
  rewrite (load_run _ _ _ Hc), (load_run _ _ _ Ho), (load_run _ _ _ Ht),
    (load_run _ _ _ Hp). simpl.
  now destruct (run_kernel k c o t p).
Qed.

Lemma dispatch_run (g : ugrid) (w : world) (d : ugrid_data) :
  buffers w g = Some d ->
  dispatch g w =
    match kernel_result d with
    | Ok q =>
        (Ok (length (workspace d (heap w))),
         World (workspace d (heap w) ++ [FArr (fst q) (snd q)])
               (calls w ++ [kcall_of d]))
    | Raise e => (Raise e, World (workspace d (heap w)) (calls w ++ [kcall_of d]))
    end.
Proof.
  intros B. destruct (buffers_inv _ _ _ B) as (Hp & Hc & Ho & Ht).
  unfold dispatch, vtk_cell_info, bind at 1. rewrite (load_run _ _ _ Hp).
  unfold kernel_result, kcall_of, kernel_of, kernel_points, workspace.
  destruct (is_float64 (ud_points d)); [now apply call_run|].
  destruct (is_float32 (ud_points d)); [now apply call_run|].
  unfold bind, alloc.
  rewrite (call_run Double _ _ _ _ _ (ud_cells d) (ud_offset d)
             (ud_celltypes d) (astype_float64 (ud_points d))); simpl;
    first [reflexivity | now apply lookup_app_l_Some | idtac].
  apply list_lookup_middle. reflexivity.
Qed.

Lemma workspace_lookup (d : ugrid_data) (h : list ndarray) (l : loc) (a : ndarray) :
  h !! l = Some a -> workspace d h !! l = Some a.
Proof.
  intros E. unfold workspace.
  destruct (is_float64 _); [exact E|]. destruct (is_float32 _); [exact E|].
  now apply lookup_app_l_Some.
Qed.

(** Lines 47-62 on a grid whose buffers are [d]. *)
Lemma measure_run (g : ugrid) (flip : bool) (w : world) (d : ugrid_data) :
  buffers w g = Some d ->
  measure g flip w =
    let h := workspace d (heap w) in
    let log := calls w ++ [kcall_of d] in
    let t := ud_celltypes d in
    match kernel_result d with
    | Raise e => (Raise e, World h log)
    | Ok q =>
        if Nat.eqb (length (eq_zero t)) (length (snd q)) then
          if flip
          then (Ok (S (length h)),
                World (h ++ [null_cells_to_one t q; negative (null_cells_to_one t q)]) log)
          else (Ok (length h), World (h ++ [null_cells_to_one t q]) log)
        else (Raise (IndexError "boolean index did not match indexed array along axis 0"),
              World (h ++ [FArr (fst q) (snd q)]) log)
    end.
Proof.
  intros B. destruct (buffers_inv _ _ _ B) as (_ & _ & _ & Ht).
  unfold measure, bind at 1. rewrite (dispatch_run _ _ _ B).
  destruct (kernel_result d) as [q|e]; [|reflexivity]. cbv zeta.
  set (h := workspace d (heap w)). set (log := calls w ++ [kcall_of d]).
  assert (Hq : (h ++ [FArr (fst q) (snd q)]) !! length h = Some (FArr (fst q) (snd q)))
    by now apply list_lookup_middle.
  assert (Ht' : (h ++ [FArr (fst q) (snd q)]) !! ug_celltypes g = Some (ud_celltypes d))
    by now apply lookup_app_l_Some, workspace_lookup.
  unfold bind at 1, set_null_cells, bind.
  rewrite (load_run (World _ log) _ _ Ht'), (load_run (World _ log) _ _ Hq).
  simpl size.
  destruct (Nat.eqb _ _); [|reflexivity].
  unfold store. simpl heap. simpl calls.
  rewrite insert_app_r_alt, Nat.sub_diag by reflexivity. simpl insert.
  fold (null_cells_to_one (ud_celltypes d) q).
  destruct flip; simpl; [|reflexivity].
  unfold bind, load, alloc. simpl heap.
  rewrite list_lookup_middle by reflexivity. simpl.
  rewrite length_app, Nat.add_1_r, <- app_assoc. reflexivity.
Qed.

Lemma measure_outcome (g : ugrid) (flip : bool) (w : world) (d : ugrid_data) :
  buffers w g = Some d -> outcome (measure g flip w) = quality_of flip d.
Proof.
  intros B. rewrite (measure_run _ _ _ _ B). unfold quality_of, postprocess.
  destruct (kernel_result d) as [q|e]; [|reflexivity]. cbv zeta.
  destruct (Nat.eqb _ _); [|reflexivity].
  destruct flip; simpl.
  - now rewrite (lookup_app_r _ _ (S _)) by lia;
      replace (S _ - _)%nat with 1%nat by lia.
  - now rewrite list_lookup_middle.
Qed.

(** Exactly one kernel invocation is made. *)
Lemma measure_calls (g : ugrid) (flip : bool) (w : world) (d : ugrid_data) :
  buffers w g = Some d ->
  calls (snd (measure g flip w)) = calls w ++ [kcall_of d].
Proof.
  intros B. rewrite (measure_run _ _ _ _ B). cbv zeta.
  destruct (kernel_result d) as [q|e]; [|reflexivity].
  destruct (Nat.eqb _ _); [|reflexivity]. now destruct flip.
Qed.

Lemma quality_run (grid : pyobj foreign) (w : world) :
  quality grid w =
    match coerce grid w with
    | (Ok c, w1) => measure (fst c) (snd c) w1
    | (Raise e, w1) => (Raise e, w1)
    end.
Proof. reflexivity. Qed.

Lemma coerce_foreign (o : foreign) (w : world) :
  coerce (Foreign o) w =
    match wrap o with
    | Ok (UnstructuredGrid g) => (Ok (g, false), w)
    | Ok _ => (Raise (TypeError "Input grid should be a pyvista or vtk UnstructuredGrid"), w)
    | Raise e => (Raise e, w)
    end.
Proof.
  unfold coerce, bind, lift. destruct (wrap o) as [[g|g|o']|e]; reflexivity.
Qed.

(** The flattened grid gets four new buffers. *)
Lemma coerce_structured (s : sgrid) (w : world) (p : ndarray) :
  heap w !! sg_points s = Some p ->
  let d := cast_to_unstructured_grid p (sg_dimensions s) in
  let n := length (heap w) in
  let g := UGrid n (S n) (S (S n)) (S (S (S n))) in
  let w1 := World (heap w ++ [ud_points d; ud_cells d; ud_offset d; ud_celltypes d])
                  (calls w) in
  coerce (StructuredGrid s) w = (Ok (g, true), w1) /\ buffers w1 g = Some d.
Proof.
  intros E d n g w1. split.
  - unfold coerce, cast, bind at 1, bind at 1. rewrite (load_run _ _ _ E).
    unfold bind, alloc, ret. simpl.
    rewrite !length_app, <- !app_assoc. simpl. rewrite !Nat.add_1_r.
    reflexivity.
  - unfold buffers, w1, g. simpl.
    rewrite (lookup_app_r _ _ n), (lookup_app_r _ _ (S n)),
      (lookup_app_r _ _ (S (S n))), (lookup_app_r _ _ (S (S (S n)))) by (unfold n; lia).
    replace (n - length (heap w))%nat with 0%nat by (unfold n; lia).
    replace (S n - length (heap w))%nat with 1%nat by (unfold n; lia).
    replace (S (S n) - length (heap w))%nat with 2%nat by (unfold n; lia).
    replace (S (S (S n)) - length (heap w))%nat with 3%nat by (unfold n; lia).
    now destruct d.
Qed.

Lemma coerce_structured_dangling (s : sgrid) (w : world) :
  heap w !! sg_points s = None ->
  coerce (StructuredGrid s) w = (dangling, w).
Proof.
  intros E. unfold coerce, cast, bind, load. now rewrite E.
Qed.

(** Coercion invokes no kernel. *)
Lemma coerce_calls (grid : pyobj foreign) (w : world) :
  calls (snd (coerce grid w)) = calls w.
Proof.
  destruct grid as [s|g|o].
  - destruct (heap w !! sg_points s) as [p|] eqn:E.
    + now rewrite (proj1 (coerce_structured _ _ _ E)).
    + now rewrite (coerce_structured_dangling _ _ E).
  - reflexivity.
  - rewrite coerce_foreign. now destruct (wrap o) as [[g|g|o']|e].
Qed.

(** The flag [flip] is set for structured grids only. *)
Lemma coerce_flip (grid : pyobj foreign) (w w1 : world) (g : ugrid) (flip : bool) :
  coerce grid w = (Ok (g, flip), w1) -> flip = is_structured grid.
Proof.
  destruct grid as [s|g'|o]; simpl.
  - unfold bind. destruct (cast s w) as [[u|e] w']; simpl; now intros [= ].
  - now intros [= ].
  - fold (coerce (Foreign o) w). rewrite coerce_foreign.
    destruct (wrap o) as [[?|?|?]|?]; now intros [= ].
Qed.

(** Once the argument is accepted, the outcome and the kernel invocation
    are those of the buffers of the coerced grid. *)
Lemma quality_accepted (grid : pyobj foreign) (w w1 : world) (g : ugrid)
    (flip : bool) (d : ugrid_data) :
  coerce grid w = (Ok (g, flip), w1) -> buffers w1 g = Some d ->
  outcome (quality grid w) = quality_of flip d /\
  calls (snd (quality grid w)) = calls w ++ [kcall_of d].
Proof.
  intros C B. rewrite quality_run, C. simpl fst. simpl snd. split.
  - now apply measure_outcome.
  - rewrite (measure_calls _ _ _ _ B). f_equal.
    now rewrite <- (coerce_calls grid w), C.
Qed.

(** When the argument is refused, nothing happens but the exception. *)
Lemma quality_refused (grid : pyobj foreign) (w w1 : world) (e : exn) :
  coerce grid w = (Raise e, w1) -> quality grid w = (Raise e, w) /\ w1 = w.
Proof.
  intros C. rewrite quality_run, C.
  destruct grid as [s|g|o].
  - destruct (heap w !! sg_points s) as [p|] eqn:E.
    + rewrite (proj1 (coerce_structured _ _ _ E)) in C. discriminate.
    + rewrite (coerce_structured_dangling _ _ E) in C.
      unfold dangling in C. now simplify_eq.
  - discriminate.
  - rewrite coerce_foreign in C.
    destruct (wrap o) as [[?|?|?]|?]; now simplify_eq.
Qed.

End Runs.

(** ** The returned array, entry by entry *)

Lemma fmap_zip_with {A B C D} (g : C -> D) (f : A -> B -> C)
    (l : list A) (k : list B) :
  g <$> zip_with f l k = zip_with (fun x y => g (f x y)) l k.
Proof.
  revert k. induction l as [|x l IH]; intros [|y k]; simpl; f_equal; auto.
Qed.

Lemma null_cells_to_one_scores (t : ndarray) (q : Float.fdtype * list spec_float) :
  null_cells_to_one t q =
    FArr (fst q)
      (zip_with (fun null x => if null : bool then Float.one (fst q) else x)
         (eq_zero t) (snd q)).
Proof. reflexivity. Qed.

Lemma negative_null_cells_to_one (t : ndarray) (q : Float.fdtype * list spec_float) :
  negative (null_cells_to_one t q) =
    FArr (fst q)
      (zip_with (fun null x => Float.neg (if null : bool then Float.one (fst q) else x))
         (eq_zero t) (snd q)).
Proof. unfold null_cells_to_one. simpl. now rewrite fmap_zip_with. Qed.

Lemma postprocess_ok (flip : bool) (t : ndarray)
    (q : Float.fdtype * list spec_float) :
  length (eq_zero t) = length (snd q) ->
  postprocess flip t q =
    Ok (FArr (fst q)
          (zip_with
             (fun null x =>
                let y := if null : bool then Float.one (fst q) else x in
                if flip then Float.neg y else y)
             (eq_zero t) (snd q))).
Proof.
  intros L. unfold postprocess.
  rewrite (proj2 (Nat.eqb_eq _ _) L).
  destruct flip; [now rewrite negative_null_cells_to_one | reflexivity].
Qed.

(** A call that returns an array went through all of lines 47-62. *)
Lemma quality_of_inv `{CQ : CellQual} (flip : bool) (d : ugrid_data) (a : ndarray) :
  quality_of flip d = Ok a ->
  exists q, kernel_result d = Ok q /\
    length (eq_zero (ud_celltypes d)) = length (snd q) /\
    a = FArr (fst q)
          (zip_with
             (fun null x =>
                let y := if null : bool then Float.one (fst q) else x in
                if flip then Float.neg y else y)
             (eq_zero (ud_celltypes d)) (snd q)).
Proof.
  unfold quality_of. destruct (kernel_result d) as [q|e]; [|discriminate].
  intros E. exists q. split; [reflexivity|].
  assert (L : length (eq_zero (ud_celltypes d)) = length (snd q)).
  { unfold postprocess in E.
    destruct (Nat.eqb _ _) eqn:T; [now apply Nat.eqb_eq | discriminate]. }
  split; [exact L|]. rewrite (postprocess_ok _ _ _ L) in E. now injection E.
Qed.

(** ** The outcome depends on the contents of the buffers only *)

Section Determinism.
Context `{PV : PyVista} `{CQ : CellQual}.

Lemma quality_denote (grid : pyobj foreign) (w : world) :
  well_formed w grid -> outcome (quality grid w) = denote w grid.
Proof.
  destruct grid as [s|g|o]; simpl well_formed; simpl denote.
  - intros [p E]. rewrite E.
    destruct (coerce_structured s w p E) as [C B].
    exact (proj1 (quality_accepted _ _ _ _ _ _ C B)).
  - intros [d B]. unfold quality_of_grid. rewrite B.
    exact (proj1 (quality_accepted (UnstructuredGrid g) w w g false d eq_refl B)).
  - intros W. pose proof (coerce_foreign o w) as C.
    destruct (wrap o) as [[s|g|o']|e].
    + now rewrite (proj1 (quality_refused _ _ _ _ C)).
    + destruct (W g eq_refl) as [d B]. unfold quality_of_grid. rewrite B.
      exact (proj1 (quality_accepted _ _ _ _ _ _ C B)).
    + now rewrite (proj1 (quality_refused _ _ _ _ C)).
    + now rewrite (proj1 (quality_refused _ _ _ _ C)).
Qed.

Lemma preserved_well_formed (grid : pyobj foreign) (w w' : world) :
  preserved w w' -> well_formed w grid -> well_formed w' grid.
Proof.
  intros P. destruct grid as [s|g|o]; simpl.
  - intros [p E]. exists p. now apply P.
  - intros [d B]. exists d. now apply (preserved_buffers w).
  - intros W g E. destruct (W g E) as [d B]. exists d.
    now apply (preserved_buffers w).
Qed.

Lemma preserved_denote (grid : pyobj foreign) (w w' : world) :
  preserved w w' -> well_formed w grid -> denote w' grid = denote w grid.
Proof.
  intros P. destruct grid as [s|g|o]; simpl.
  - intros [p E]. now rewrite E, (P _ _ E).
  - intros [d B]. unfold quality_of_grid.
    now rewrite B, (preserved_buffers _ _ _ _ P B).
  - intros W. destruct (wrap o) as [[s|g|o']|e]; try reflexivity.
    destruct (W g eq_refl) as [d B]. unfold quality_of_grid.
    now rewrite B, (preserved_buffers _ _ _ _ P B).
Qed.

End Determinism.

(** ** The kernel of the specification *)

Section KernelFacts.
Context `{EV : Evaluators}.
Variables (t : Float.fdtype) (cells offset points : ndarray).

Lemma pass_length (codes : list Z) (i : nat) (xs : list spec_float) :
  pass t cells offset points i codes = Ok xs -> length xs = length codes.
Proof.
  revert i xs. induction codes as [|c codes IH]; intros i xs; simpl.
  - now intros [= <-].
  - destruct (score t cells offset points i c); [|discriminate].
    destruct (pass t cells offset points (S i) codes) eqn:E; [|discriminate].
    intros [= <-]. simpl. f_equal. now apply (IH (S i)).
Qed.

(** Every score of a pass that succeeds is one, or comes from the
    evaluator of the code of its cell. *)
Lemma pass_scores (P : spec_float -> Prop) (codes : list Z) (i : nat)
    (xs : list spec_float) :
  P (Float.one t) ->
  (forall j c f x, codes !! j = Some c -> evaluate t c = Some f ->
     f cells offset points (i + j)%nat = Ok x -> P x) ->
  pass t cells offset points i codes = Ok xs -> Forall P xs.
Proof.
  intros P1. revert i xs. induction codes as [|c codes IH]; intros i xs H; simpl.
  - intros [= <-]. constructor.
  - destruct (score t cells offset points i c) as [x|] eqn:Sc; [|discriminate].
    destruct (pass t cells offset points (S i) codes) as [ys|] eqn:E; [|discriminate].
    intros [= <-]. constructor.
    + unfold score in Sc. destruct (c =? 0); [now injection Sc as <-|].
      destruct (evaluate t c) as [f|] eqn:F; [|discriminate].
      apply (H 0%nat c f x eq_refl F). now rewrite Nat.add_0_r.
    + apply (IH (S i)); [|exact E]. intros j c' f y Hj F Y.
      apply (H (S j) c' f y Hj F). now rewrite Nat.add_succ_r.
Qed.




End KernelFacts.


(** * The claims *)

Section Claims.
Context `{PV : PyVista} `{CQ : CellQual}.

(** The score returned for a null cell: one, negated when [flip] is set. *)
Lemma null_cell_score (grid : pyobj foreign) (w w1 : world) (g : ugrid)
    (flip : bool) (d : ugrid_data) (a : ndarray) (i : nat) :
  coerce grid w = (Ok (g, flip), w1) -> buffers w1 g = Some d ->
  outcome (quality grid w) = Ok a ->
  eq_zero (ud_celltypes d) !! i = Some true ->
  exists t xs, a = FArr t xs /\
    xs !! i = Some (if flip then Float.neg (Float.one t) else Float.one t).
Proof.
  intros C B O Z0. rewrite (proj1 (quality_accepted _ _ _ _ _ _ C B)) in O.
  destruct (quality_of_inv _ _ _ O) as (q & _ & L & ->).
  exists (fst q), (zip_with
    (fun null x => let y := if null : bool then Float.one (fst q) else x in
                   if flip then Float.neg y else y)
    (eq_zero (ud_celltypes d)) (snd q)).
  split; [reflexivity|]. rewrite lookup_zip_with, Z0. simpl.
  destruct (lookup_lt_is_Some_2 (snd q) i) as [x ->]; [|reflexivity].
  rewrite <- L. now apply (lookup_lt_Some _ _ true).
Qed.

(** In an unstructured grid, a null cell scores exactly one. *)
Lemma null_cell_of_unstructured_grid (g : ugrid) (w : world) (d : ugrid_data)
    (a : ndarray) (i : nat) :
  buffers w g = Some d ->
  outcome (quality (UnstructuredGrid g) w) = Ok a ->
  eq_zero (ud_celltypes d) !! i = Some true ->
  exists t xs, a = FArr t xs /\ xs !! i = Some (Float.one t).
Proof.
  intros B. exact (null_cell_score (UnstructuredGrid g) w w g false d a i eq_refl B).
Qed.

(** C2. A structured grid is flattened with [cast_to_unstructured_grid], the
    kernel runs on the buffers of the flattened grid, and every entry of the
    array [qual] is negated before it is returned; for any other accepted
    argument no negation is applied.  Entry by entry: the returned score is
    the one the kernel computed (one for a null cell, line 59), negated
    exactly when the argument is a structured grid. *)
Theorem flip_for_structured_grids_only (grid : pyobj foreign) (w w1 : world)
    (g : ugrid) (flip : bool) (d : ugrid_data)
    (q : Float.fdtype * list spec_float) :
  coerce grid w = (Ok (g, flip), w1) ->
  buffers w1 g = Some d ->
  kernel_result d = Ok q ->
  length (eq_zero (ud_celltypes d)) = length (snd q) ->
  flip = is_structured grid /\
  (forall s, grid = StructuredGrid s ->
     exists p, heap w !! sg_points s = Some p /\
       d = cast_to_unstructured_grid p (sg_dimensions s)) /\
  calls (snd (quality grid w)) =
    calls w ++ [KCall (kernel_of d) (ud_cells d) (ud_offset d) (ud_celltypes d)
                  (kernel_points d)] /\
  outcome (quality grid w) =
    Ok (FArr (fst q)
          (zip_with
             (fun null x =>
                let y := if null : bool then Float.one (fst q) else x in
                if is_structured grid then Float.neg y else y)
             (eq_zero (ud_celltypes d)) (snd q))).
Proof.
  intros C B K L. pose proof (coerce_flip _ _ _ _ _ C) as F.
  destruct (quality_accepted _ _ _ _ _ _ C B) as [O T].
  split; [exact F|]. split; [|split].
  - intros s ->. destruct (heap w !! sg_points s) as [p|] eqn:E.
    + exists p. split; [reflexivity|].
      destruct (coerce_structured s w p E) as [C' B'].
      rewrite C' in C. injection C as <- _ <-. rewrite B' in B. now injection B.
    + rewrite (coerce_structured_dangling _ _ E) in C. discriminate.
  - exact T.
  - rewrite O. unfold quality_of. rewrite K, (postprocess_ok _ _ _ L).
    now rewrite F.
Qed.


(** C6, amended.  An argument that is neither a structured nor an
    unstructured grid and that [pv.wrap] does not turn into an unstructured
    grid is refused:
    the call raises, the heap and the record of kernel invocations are
    those of before the call, so that no kernel ran and no scores exist.
    The exception is the [TypeError] of line 45 whenever [pv.wrap] returned,
    and the one [pv.wrap] raised otherwise. *)
Theorem non_grid_rejected (o : foreign) (w : world) :
  (forall g, wrap o <> Ok (UnstructuredGrid g)) ->
  quality (Foreign o) w =
    (Raise match wrap o with
           | Ok _ => TypeError "Input grid should be a pyvista or vtk UnstructuredGrid"
           | Raise e => e
           end, w).
Proof.
  intros N. pose proof (coerce_foreign o w) as C.
  destruct (wrap o) as [[s|g|o']|e] eqn:W.
  - exact (proj1 (quality_refused _ _ _ _ C)).
  - now destruct (N g).
  - exact (proj1 (quality_refused _ _ _ _ C)).
  - exact (proj1 (quality_refused _ _ _ _ C)).
Qed.

(** C8. Calling [quality] twice on the same argument gives the same outcome:
    the same exception, or arrays with the same dtype and the same entries.
    The second call runs in the heap the first one left behind. *)
Theorem quality_idempotent (grid : pyobj foreign) (w : world) :
  well_formed w grid ->
  outcome (quality grid (snd (quality grid w))) = outcome (quality grid w).
Proof.
  intros W. pose proof (quality_preserves grid w) as P.
  rewrite (quality_denote grid w W).
  rewrite (quality_denote grid _ (preserved_well_formed _ _ _ P W)).
  now apply preserved_denote.
Qed.

(** C9. The call leaves every array that existed before it as it was, dtype
    and entries: in particular the points, the connectivity, the offsets
    and the cell types of the grid of the caller. *)
Theorem quality_leaves_mesh_unchanged (grid : pyobj foreign) (w : world) :
  (forall l a, heap w !! l = Some a -> heap (snd (quality grid w)) !! l = Some a) /\
  (forall g d, buffers w g = Some d -> buffers (snd (quality grid w)) g = Some d) /\
  (forall s p, heap w !! sg_points s = Some p ->
     heap (snd (quality grid w)) !! sg_points s = Some p).
Proof.
  pose proof (quality_preserves grid w) as P. split; [exact P|]. split.
  - intros g d. now apply preserved_buffers.
  - intros s p. apply P.
Qed.

(** C10. A structured grid never reaches the [TypeError] of line 45: it is
    cast to an unstructured grid, [flip] is set, and the kernel is invoked
    on the buffers of the flattened grid. *)
Theorem structured_grid_accepted (s : sgrid) (w : world) (p : ndarray) :
  heap w !! sg_points s = Some p ->
  (forall msg w1, coerce (StructuredGrid s) w <> (Raise (TypeError msg), w1)) /\
  (exists g w1, coerce (StructuredGrid s) w = (Ok (g, true), w1) /\
     buffers w1 g = Some (cast_to_unstructured_grid p (sg_dimensions s))) /\
  calls (snd (quality (StructuredGrid s) w)) =
    calls w ++ [kcall_of (cast_to_unstructured_grid p (sg_dimensions s))].
Proof.
  intros E. destruct (coerce_structured s w p E) as [C B]. split; [|split].
  - intros msg w1. now rewrite C.
  - eauto.
  - exact (proj2 (quality_accepted _ _ _ _ _ _ C B)).
Qed.

End Claims.

(** ** With the kernel of the specification *)

Section SpecKernelClaims.
Context `{PV : PyVista} `{EV : Evaluators}.


End SpecKernelClaims.

(** ** The example of the docstring *)

Section Docstring.
Import Float Example.

Lemma fmap_neg_replicate (n : nat) (x : spec_float) (ys : list spec_float) :
  neg <$> ys = replicate n x -> ys = replicate n (neg x).
Proof.
  revert n. induction ys as [|y ys IH]; intros [|n]; simpl;
    try discriminate; [reflexivity|].
  intros [= Ey E]. f_equal; [now rewrite <- Ey, neg_involutive | now apply IH].
Qed.

(** Whatever the collaborators are, when the call of the docstring returns
    the array that is printed, [qual] held minus one in each of the 27 cells
    before the sign flip. *)
Lemma docstring_before_flip (PV : PyVista) (CQ : CellQual) :
  docstring_holds PV CQ ->
  before_flip docstring_world docstring_grid =
    Ok (FArr Float64 (replicate 27 (minus_one Float64))).
Proof.
  unfold docstring_holds, before_flip, docstring_grid. intros D.
  destruct (coerce_structured (SGrid 0%nat (4, 4, 4)) docstring_world
              (IArr Int64 docstring_points) eq_refl) as [C B].
  simpl sg_dimensions in C, B.
  set (d := cast_to_unstructured_grid (IArr Int64 docstring_points) (4, 4, 4)) in *.
  rewrite (proj1 (quality_accepted _ _ _ _ _ _ C B)) in D.
  rewrite C. simpl fst. simpl snd. rewrite (measure_outcome _ _ _ _ B).
  destruct (quality_of_inv _ _ _ D) as (q & K & L & E).
  unfold quality_of. rewrite K, (postprocess_ok _ _ _ L).
  unfold docstring_output in E. injection E as T E.
  pose proof (fmap_zip_with neg
                (fun (null : bool) x => if null then one (fst q) else x)
                (eq_zero (ud_celltypes d)) (snd q)) as Z.
  cbv beta iota zeta in E. rewrite <- Z in E. symmetry in E.
  apply (fmap_neg_replicate 27 (one Float64)) in E.
  cbv beta iota zeta. now rewrite E, <- T.
Qed.

Lemma all_scores_replicate (x y : fdtype -> spec_float) (t : fdtype) (n : nat) :
  all_scores x (Ok (FArr t (replicate (S n) (y t)))) -> x t = y t.
Proof.
  intros (t' & xs & E & _ & F). injection E as <- <-.
  now inversion F.
Qed.

(** C3, as stated, fails.  With a flattening in VTK order and the scaled
    Jacobian of the hexahedron as the evaluator, the call of the docstring
    returns the 27 ones that the docstring prints, and there the scores are
    not plus one before the flip and minus one after it.  No collaborators
    at all agree both with the docstring and with plus one before the
    flip, nor with the docstring and with minus one after it. *)
Lemma docstring_refutes_plus_one_then_minus_one :
  docstring_holds (pyvista []) kernels /\
  ~ plus_one_then_minus_one (pyvista []) kernels /\
  ~ (exists PV CQ, docstring_holds PV CQ /\
       all_scores one (@before_flip PV CQ docstring_world docstring_grid)) /\
  ~ (exists PV CQ, docstring_holds PV CQ /\
       all_scores minus_one
         (outcome (@quality PV CQ docstring_grid docstring_world))).
Proof.
  assert (D : docstring_holds (pyvista []) kernels) by (vm_compute; reflexivity).
  assert (N1 : forall PV CQ, docstring_holds PV CQ ->
            ~ all_scores one (@before_flip PV CQ docstring_world docstring_grid)).
  { intros PV CQ H A. rewrite (docstring_before_flip PV CQ H) in A.
    apply (all_scores_replicate one minus_one) in A.
    exact (neg_one_ne_one Float64 (eq_sym A)). }
  split; [exact D|]. split; [|split].
  - intros [A _]. exact (N1 _ _ D A).
  - intros (PV & CQ & H & A). exact (N1 PV CQ H A).
  - intros (PV & CQ & H & A). unfold docstring_holds in H. rewrite H in A.
    apply (all_scores_replicate minus_one one) in A.
    exact (neg_one_ne_one Float64 A).
Qed.

(** C1, at a structured grid.  The second cell of the grid of the docstring
    is blanked, so that the flattened grid has a null cell there: the score
    returned for it is minus one, not one. *)
Theorem null_cell_of_structured_grid_scores_minus_one :
  eq_zero (ud_celltypes (flatten [1%nat] (IArr Int64 docstring_points) (4, 4, 4)))
    !! 1%nat = Some true /\
  exists xs,
    outcome (@quality (pyvista [1%nat]) kernels docstring_grid docstring_world)
      = Ok (FArr Float64 xs) /\
    length xs = 27%nat /\
    xs !! 1%nat = Some (neg (one Float64)) /\
    neg (one Float64) <> one Float64.
Proof.
  split; [vm_compute; reflexivity|].
  eexists. split; [vm_compute; reflexivity|].
  split; [reflexivity|]. split; [reflexivity|]. discriminate.
Qed.

End Docstring.

(** ** The claims at concrete grids *)

Section Instances.
Import Float Example.

(** The grid of the docstring, structured, and a unit cube followed by a
    null cell, unstructured. *)
Lemma flip_for_structured_grids_only_witness :
  outcome (@quality (pyvista []) kernels docstring_grid docstring_world)
    = Ok (FArr Float64 (replicate 27 (one Float64))) /\
  outcome (@quality (pyvista []) kernels (UnstructuredGrid cube_grid)
             (cube_world [12; 0]))
    = Ok (FArr Float64 [one Float64; one Float64]).
Proof.
  split.
  - edestruct (flip_for_structured_grids_only (PV := pyvista []) (CQ := kernels)
                 docstring_grid docstring_world) as (_ & _ & _ & O);
      [vm_compute; reflexivity ..|].
    rewrite O. vm_compute. reflexivity.
  - edestruct (flip_for_structured_grids_only (PV := pyvista []) (CQ := kernels)
                 (UnstructuredGrid cube_grid) (cube_world [12; 0]))
      as (_ & _ & _ & O); [vm_compute; reflexivity ..|].
    rewrite O. vm_compute. reflexivity.
Defined.


(** A [PolyData] is refused. *)
Lemma non_grid_rejected_witness :
  @quality (pyvista []) kernels (Foreign PolyData) docstring_world
    = (Raise (TypeError "Input grid should be a pyvista or vtk UnstructuredGrid"),
       docstring_world).
Proof.
  apply (non_grid_rejected (PV := pyvista []) (CQ := kernels) PolyData
           docstring_world).
  intros g. discriminate.
Defined.


Lemma quality_idempotent_witness :
  outcome (@quality (pyvista []) kernels docstring_grid
             (snd (@quality (pyvista []) kernels docstring_grid docstring_world)))
  = outcome (@quality (pyvista []) kernels docstring_grid docstring_world).
Proof.
  apply (quality_idempotent (PV := pyvista []) (CQ := kernels)).
  simpl. eexists. reflexivity.
Defined.

Lemma structured_grid_accepted_witness :
  exists g w1,
    coerce (PV := pyvista []) docstring_grid docstring_world = (Ok (g, true), w1) /\
    buffers w1 g = Some (flatten [] (IArr Int64 docstring_points) (4, 4, 4)).
Proof.
  exact (proj1 (proj2 (structured_grid_accepted (PV := pyvista []) (CQ := kernels)
                         (SGrid 0%nat (4, 4, 4)) docstring_world
                         (IArr Int64 docstring_points) eq_refl))).
Defined.

End Instances.

(** * Further properties of [quality] *)

(** ** The returned array is a new object *)

Section Fresh.
Context `{PV : PyVista} `{CQ : CellQual}.
Variable h0 : list ndarray.

Lemma frames_finish_fresh (flip : bool) (qual : loc) :
  (length h0 <= qual)%nat ->
  frames h0 (finish flip qual) (fun l => (length h0 <= l)%nat).
Proof.
  intros L. destruct flip; simpl; [|now apply frames_ret].
  eapply frames_bind; [apply frames_load|intros ? _]. apply frames_alloc.
Qed.

Lemma frames_measure_fresh (g : ugrid) (flip : bool) :
  frames h0 (measure g flip) (fun l => (length h0 <= l)%nat).
Proof.
  unfold measure.
  eapply frames_bind; [apply frames_dispatch|intros qual L].
  eapply frames_bind; [now apply frames_set_null_cells|intros _ _].
  now apply frames_finish_fresh.
Qed.

Lemma frames_quality_fresh (grid : pyobj foreign) :
  frames h0 (quality grid) (fun l => (length h0 <= l)%nat).
Proof.
  unfold quality.
  eapply frames_bind; [apply frames_coerce|intros ? _].
  apply frames_measure_fresh.
Qed.

End Fresh.

Section More.
Context `{PV : PyVista} `{CQ : CellQual}.

Lemma size_eq_zero (a : ndarray) : length (eq_zero a) = size a.
Proof. destruct a; simpl; apply length_fmap. Qed.

Lemma size_negative (a : ndarray) : size (negative a) = size a.
Proof. destruct a; simpl; apply length_fmap. Qed.

(** The sign flip is the only difference between the two values of
    [flip]. *)
Lemma quality_of_flip (d : ugrid_data) :
  quality_of true d =
    match quality_of false d with
    | Ok a => Ok (negative a)
    | Raise e => Raise e
    end.
Proof.
  unfold quality_of, postprocess. destruct (kernel_result d) as [q|e]; [|reflexivity].
  now destruct (Nat.eqb _ _).
Qed.

(** X1. An exception of the kernel reaches the caller as it is: the wrapper
    catches nothing, and no array of scores is created, the heap holding
    only what the coercion and the conversion of the points allocated. *)
Theorem kernel_exception_propagates (grid : pyobj foreign) (w w1 : world)
    (g : ugrid) (flip : bool) (d : ugrid_data) (e : exn) :
  coerce grid w = (Ok (g, flip), w1) ->
  buffers w1 g = Some d ->
  kernel_result d = Raise e ->
  fst (quality grid w) = Raise e /\
  heap (snd (quality grid w)) = workspace d (heap w1).
Proof.
  intros C B K. rewrite quality_run, C. simpl fst. simpl snd.
  rewrite (measure_run _ _ _ _ B). cbv zeta. rewrite K. split; reflexivity.
Qed.

(** X2. When the kernel returns an array, the call returns scores exactly
    when that array has one entry per cell: the result then has one entry
    per cell and the dtype of the array of the kernel; an array of any other
    length makes line 59 raise [IndexError]. *)
Theorem one_score_per_cell (grid : pyobj foreign) (w w1 : world)
    (g : ugrid) (flip : bool) (d : ugrid_data)
    (q : Float.fdtype * list spec_float) :
  coerce grid w = (Ok (g, flip), w1) ->
  buffers w1 g = Some d ->
  kernel_result d = Ok q ->
  (length (snd q) = size (ud_celltypes d) ->
     exists a, outcome (quality grid w) = Ok a /\
       size a = size (ud_celltypes d) /\ dtype_of a = DFloat (fst q)) /\
  (length (snd q) <> size (ud_celltypes d) ->
     outcome (quality grid w) =
       Raise (IndexError "boolean index did not match indexed array along axis 0")).
Proof.
  intros C B K. rewrite (proj1 (quality_accepted _ _ _ _ _ _ C B)).
  unfold quality_of. rewrite K. split.
  - intros L. rewrite <- size_eq_zero in L.
    rewrite (postprocess_ok _ _ _ (eq_sym L)). eexists. split; [reflexivity|].
    split; [|reflexivity]. cbn [size].
    now rewrite length_zip_with, <- L, Nat.min_id, L, size_eq_zero.
  - intros N. unfold postprocess. rewrite size_eq_zero.
    destruct (Nat.eqb _ _) eqn:E; [|reflexivity].
    apply Nat.eqb_eq in E. now destruct N.
Qed.

(** X3. The reference that is returned is to none of the arrays that existed
    before the call: whatever the argument and the kernel, the result never
    aliases a buffer of the mesh of the caller. *)
Theorem result_is_a_new_array (grid : pyobj foreign) (w : world) (l : loc) :
  fst (quality grid w) = Ok l -> heap w !! l = None.
Proof.
  intros E. apply lookup_ge_None.
  exact (proj2 (frames_quality_fresh (heap w) grid w (reflexivity _)) l E).
Qed.

(** X4. The scores of a structured grid are the negated scores of its
    flattening: [quality(grid)] is [-quality(grid.cast_to_unstructured_grid())],
    entry by entry, and raises what the latter raises. *)
Theorem structured_scores_negate_flattened (s : sgrid) (w w1 : world)
    (g : ugrid) :
  coerce (StructuredGrid s) w = (Ok (g, true), w1) ->
  outcome (quality (StructuredGrid s) w) =
    match outcome (quality (UnstructuredGrid g) w1) with
    | Ok a => Ok (negative a)
    | Raise e => Raise e
    end.
Proof.
  intros C. destruct (heap w !! sg_points s) as [p|] eqn:E.
  - destruct (coerce_structured s w p E) as [C' B].
    rewrite C' in C. injection C as <- <-.
    rewrite (proj1 (quality_accepted _ _ _ _ _ _ C' B)).
    rewrite (proj1 (quality_accepted (UnstructuredGrid _) _ _ _ false _ eq_refl B)).
    apply quality_of_flip.
  - rewrite (coerce_structured_dangling _ _ E) in C. discriminate.
Qed.

(** X5. An object that [pv.wrap] turns into an unstructured grid is scored
    as that grid is: same result, same heap, same kernel invocation. *)
Theorem wrapped_grid_scored_as_grid (o : foreign) (g : ugrid) (w : world) :
  wrap o = Ok (UnstructuredGrid g) ->
  quality (Foreign o) w = quality (UnstructuredGrid g) w.
Proof.
  intros W. rewrite !quality_run, coerce_foreign, W. reflexivity.
Qed.

(** X6. Points of an integer dtype are scored as their conversion to
    float64 is: a grid with the converted points and the same connectivity,
    offsets and cell types has the same outcome. *)
Theorem integer_points_scored_as_float64 (g g' : ugrid) (w : world)
    (d : ugrid_data) (t : idtype) (xs : list Z) :
  buffers w g = Some d ->
  ud_points d = IArr t xs ->
  buffers w g' =
    Some (UGridData (FArr Float.Float64 (Float.of_Z64 <$> xs))
            (ud_cells d) (ud_offset d) (ud_celltypes d)) ->
  outcome (quality (UnstructuredGrid g) w) =
  outcome (quality (UnstructuredGrid g') w).
Proof.
  intros B P B'.
  rewrite (proj1 (quality_accepted (UnstructuredGrid g) w w g false _ eq_refl B)).
  rewrite (proj1 (quality_accepted (UnstructuredGrid g') w w g' false _ eq_refl B')).
  unfold quality_of, kernel_result, kernel_of, kernel_points. simpl.
  now rewrite P.
Qed.

(** X7. A raw VTK structured grid, which [pv.wrap] turns into a pyvista
    structured grid, is refused with the [TypeError] of line 45 and without
    a kernel invocation, although the pyvista grid it wraps to is accepted
    and scored: only the first test of the wrapper looks for structured
    grids. *)
Theorem wrapped_structured_grid_refused (o : foreign) (s : sgrid) (w : world)
    (p : ndarray) :
  wrap o = Ok (StructuredGrid s) ->
  heap w !! sg_points s = Some p ->
  quality (Foreign o) w =
    (Raise (TypeError "Input grid should be a pyvista or vtk UnstructuredGrid"), w) /\
  outcome (quality (StructuredGrid s) w) =
    quality_of true (cast_to_unstructured_grid p (sg_dimensions s)) /\
  calls (snd (quality (StructuredGrid s) w)) <> calls w.
Proof.
  intros W E. split; [|split].
  - rewrite quality_run, coerce_foreign, W. reflexivity.
  - destruct (coerce_structured s w p E) as [C B].
    exact (proj1 (quality_accepted _ _ _ _ _ _ C B)).
  - destruct (coerce_structured s w p E) as [C B].
    rewrite (proj2 (quality_accepted _ _ _ _ _ _ C B)).
    intros H. apply (f_equal length) in H. rewrite length_app in H. simpl in H. lia.
Qed.

(** X8. Whatever the argument, a call invokes a kernel at most once, and
    never when the argument is refused. *)
Theorem at_most_one_kernel_invocation (grid : pyobj foreign) (w : world) :
  calls (snd (quality grid w)) = calls w \/
  exists c, calls (snd (quality grid w)) = calls w ++ [c] /\
    exists l, fst (coerce grid w) = Ok l.
Proof.
  rewrite quality_run. pose proof (coerce_calls grid w) as CC.
  destruct (coerce grid w) as [[[g flip]|e] w1]; simpl in *; [|now left].
  rewrite <- CC.
  assert (H : calls (snd (measure g flip w1)) = calls w1 \/
              exists c, calls (snd (measure g flip w1)) = calls w1 ++ [c]).
  { unfold measure, dispatch, call, set_null_cells, finish, vtk_cell_info,
      bind, load, alloc, store, log, lift, ret, raise.
    repeat (case_match; simplify_eq; simpl in *); eauto. }
  destruct H as [H|[c H]]; [now left|right]. exists c. eauto.
Qed.

End More.

(** ** The further properties at concrete grids *)

Section MoreInstances.
Import Float Example.

(** The cube followed by a cell of code 7: the error of the kernel comes
    out, and the heap is the one of before the call. *)
Lemma kernel_exception_propagates_witness :
  fst (@quality (pyvista []) kernels (UnstructuredGrid cube_grid)
         (cube_world [12; 7])) = Raise (UnsupportedCellType 7) /\
  heap (snd (@quality (pyvista []) kernels (UnstructuredGrid cube_grid)
               (cube_world [12; 7]))) = heap (cube_world [12; 7]).
Proof.
  edestruct (kernel_exception_propagates (PV := pyvista []) (CQ := kernels)
               (UnstructuredGrid cube_grid) (cube_world [12; 7]))
    with (e := UnsupportedCellType 7) as [R H];
    [vm_compute; reflexivity ..|].
  split; [exact R|]. rewrite H. reflexivity.
Defined.

Lemma one_score_per_cell_witness :
  exists a,
    outcome (@quality (pyvista []) kernels (UnstructuredGrid cube_grid)
               (cube_world [12; 0])) = Ok a /\
    size a = 2%nat /\ dtype_of a = DFloat Float64.
Proof.
  edestruct (one_score_per_cell (PV := pyvista []) (CQ := kernels)
               (UnstructuredGrid cube_grid) (cube_world [12; 0]))
    as [S _]; [vm_compute; reflexivity ..|].
  destruct (S eq_refl) as (a & O & L & D). exists a.
  split; [exact O|]. split; [exact L|exact D].
Defined.

(** The docstring grid: the heap holds one array before the call, and the
    result is the eighth. *)
Lemma result_is_a_new_array_witness :
  fst (@quality (pyvista []) kernels docstring_grid docstring_world) = Ok 7%nat /\
  heap docstring_world !! 7%nat = None.
Proof.
  assert (E : fst (@quality (pyvista []) kernels docstring_grid docstring_world)
              = Ok 7%nat) by (vm_compute; reflexivity).
  split; [exact E|].
  exact (result_is_a_new_array (PV := pyvista []) (CQ := kernels)
           docstring_grid docstring_world 7%nat E).
Defined.

Lemma structured_scores_negate_flattened_witness :
  exists g w1,
    coerce (PV := pyvista []) docstring_grid docstring_world = (Ok (g, true), w1) /\
    outcome (@quality (pyvista []) kernels (UnstructuredGrid g) w1)
      = Ok (FArr Float64 (replicate 27 (neg (one Float64)))) /\
    outcome (@quality (pyvista []) kernels docstring_grid docstring_world)
      = Ok (negative (FArr Float64 (replicate 27 (neg (one Float64))))).
Proof.
  eexists. eexists. split; [vm_compute; reflexivity|].
  split; [vm_compute; reflexivity|].
  unfold docstring_grid.
  rewrite (structured_scores_negate_flattened (PV := pyvista []) (CQ := kernels)
             (SGrid 0%nat (4, 4, 4)) docstring_world _ _
             ltac:(vm_compute; reflexivity)).
  vm_compute. reflexivity.
Defined.

Lemma wrapped_grid_scored_as_grid_witness :
  @quality (pyvista []) kernels (Foreign (VtkUnstructuredGrid cube_grid))
    (cube_world [12; 0])
  = @quality (pyvista []) kernels (UnstructuredGrid cube_grid) (cube_world [12; 0]).
Proof.
  apply (wrapped_grid_scored_as_grid (PV := pyvista []) (CQ := kernels)).
  reflexivity.
Defined.

Lemma integer_points_scored_as_float64_witness :
  outcome (@quality Vtk.pyvista kernels (UnstructuredGrid Vtk.integer_cube)
             Vtk.cubes_world)
  = outcome (@quality Vtk.pyvista kernels (UnstructuredGrid Vtk.float_cube)
               Vtk.cubes_world).
Proof.
  eapply (integer_points_scored_as_float64 (PV := Vtk.pyvista) (CQ := kernels)
            Vtk.integer_cube Vtk.float_cube Vtk.cubes_world);
    [vm_compute; reflexivity | reflexivity | reflexivity].
Defined.

(** The grid of the docstring as a raw VTK object. *)
Lemma wrapped_structured_grid_refused_witness :
  @quality Vtk.pyvista kernels
    (Foreign (Vtk.VtkStructuredGrid (SGrid 0%nat (4, 4, 4)))) docstring_world
  = (Raise (TypeError "Input grid should be a pyvista or vtk UnstructuredGrid"),
     docstring_world) /\
  outcome (@quality Vtk.pyvista kernels docstring_grid docstring_world)
  = Ok docstring_output.
Proof.
  destruct (wrapped_structured_grid_refused (PV := Vtk.pyvista) (CQ := kernels)
              (Vtk.VtkStructuredGrid (SGrid 0%nat (4, 4, 4)))
              (SGrid 0%nat (4, 4, 4)) docstring_world
              (IArr Int64 docstring_points) eq_refl eq_refl) as (R & O & _).
  split; [exact R|]. unfold docstring_grid. rewrite O. vm_compute. reflexivity.
Defined.

End MoreInstances.

(** * Where the code departs from the specification *)

Section Amended.
Context `{PV : PyVista} `{CQ : CellQual}.


(** For a structured grid the call returns the negation of [qual]. *)
Lemma structured_result_negates_qual (s : sgrid) (w : world) (a : ndarray) :
  before_flip w (StructuredGrid s) = Ok a ->
  outcome (quality (StructuredGrid s) w) = Ok (negative a).
Proof.
  unfold before_flip. destruct (heap w !! sg_points s) as [p|] eqn:E.
  - destruct (coerce_structured s w p E) as [C B]. rewrite C.
    simpl fst. simpl snd. rewrite (measure_outcome _ _ _ _ B). intros Q.
    rewrite (proj1 (quality_accepted _ _ _ _ _ _ C B)), quality_of_flip.
    now rewrite Q.
  - rewrite (coerce_structured_dangling _ _ E). discriminate.
Qed.


End Amended.

Section AmendedInstances.
Import Float Example.



(** C6, as stated, fails.  A string is neither kind of grid and [pv.wrap]
    does not turn it into one: it raises [NotImplementedError], and that
    exception, which is not a [TypeError], is what the call raises. *)
Lemma wrap_exception_is_not_a_type_error :
  (forall g, @wrap Cases.pyvista (Cases.Str "abc") <> Ok (UnstructuredGrid g)) /\
  @quality Cases.pyvista kernels (Foreign (Cases.Str "abc")) docstring_world
    = (Raise (OtherError "NotImplementedError"
                "Unable to wrap (<class 'str'>) into a pyvista type."),
       docstring_world) /\
  ~ (exists msg,
       fst (@quality Cases.pyvista kernels (Foreign (Cases.Str "abc"))
              docstring_world) = Raise (TypeError msg)).
Proof.
  split; [intros g; discriminate|]. split; [reflexivity|].
  intros [msg E]. discriminate.
Qed.

(** C3, amended.  The lattice of the docstring scores plus or minus one in
    each of its 27 cells, and the sign follows the order of the points.
    With the default indexing of [np.meshgrid], as in the docstring, the
    cells are inverted: minus one before the sign flip, and plus one after
    it, which is the array the docstring prints.  With [indexing='ij'] the
    cells are right-handed: plus one before the flip and minus one after
    it.  In every case the call returns the negation of [qual]. *)
Theorem uniform_grid_scores_follow_orientation :
  (before_flip (PV := pyvista []) (CQ := kernels) docstring_world docstring_grid
     = Ok (FArr Float64 (replicate 27 (neg (one Float64)))) /\
   outcome (@quality (pyvista []) kernels docstring_grid docstring_world)
     = Ok (FArr Float64 (replicate 27 (one Float64)))) /\
  (before_flip (PV := pyvista []) (CQ := kernels) Cases.ij_world docstring_grid
     = Ok (FArr Float64 (replicate 27 (one Float64))) /\
   outcome (@quality (pyvista []) kernels docstring_grid Cases.ij_world)
     = Ok (FArr Float64 (replicate 27 (neg (one Float64))))).
Proof.
  assert (XY : before_flip (PV := pyvista []) (CQ := kernels) docstring_world
                 docstring_grid
               = Ok (FArr Float64 (replicate 27 (neg (one Float64)))))
    by (vm_compute; reflexivity).
  assert (IJ : before_flip (PV := pyvista []) (CQ := kernels) Cases.ij_world
                 docstring_grid
               = Ok (FArr Float64 (replicate 27 (one Float64))))
    by (vm_compute; reflexivity).
  split; (split; [assumption|]).
  - unfold docstring_grid.
    now rewrite (structured_result_negates_qual _ _ _ XY).
  - unfold docstring_grid.
    now rewrite (structured_result_negates_qual _ _ _ IJ).
Qed.

End AmendedInstances.
